(** * auto-feedback: sentiment engine and history ledger

    A shallow embedding of [app/model.py] (the [SentimentAnalyzer] class and
    [analyze_sentiment]) and of the endpoints of [app/main.py] that touch the
    module-level list [analysis_history] ([/analyze], [/history], [/stats]),
    with the client side of [app/dashboard.py]: [analyze_text_api] and the
    session bookkeeping under the Analyze button.

    Conventions of the embedding:
    - Python [str] is [string]; a character is a code point below 256.
    - Python [float] is idealised as an exact rational [Q]: arithmetic carries
      no binary rounding error.  [round(x, n)] is decimal rounding to [n]
      places with ties to even, which is what CPython computes from the exact
      value of [x].
    - A Python [dict] with string keys is a [gmap string pyval].
    - Code that may raise returns in the error monad [exc]; [try ... except
      Exception] is [try_except].
    - The third-party libraries (TextBlob, the Hugging Face pipeline) and the
      clock are inputs, collected in the record [World]. *)

From Stdlib Require Import ZArith QArith Qround Qabs Qminmax Lqa Lia List String Ascii Bool.
From stdpp Require Import gmap strings list fin_maps.
Import ListNotations.

Close Scope Q_scope.
Open Scope string_scope.

(** ** Python numbers *)

Module PyNum.

(** [x < y] on floats. *)
Definition Qltb (x y : Q) : bool := negb (Qle_bool y x).

(** Built-in [min(a, b)]: the first argument unless the second is smaller. *)
Definition py_min (a b : Q) : Q := if Qltb b a then b else a.

(** Built-in [abs]. *)
Definition py_abs (x : Q) : Q := if Qltb x 0 then (- x)%Q else x.

(** Nearest integer, ties to the even one. *)
Definition round_half_even (x : Q) : Z :=
  let f := Qfloor x in
  match ((x - inject_Z f) ?= (1 # 2))%Q with
  | Lt => f
  | Gt => (f + 1)%Z
  | Eq => if Z.even f then f else (f + 1)%Z
  end.

(** Built-in [round(x, ndigits)] for [ndigits >= 0]. *)
Definition py_round (x : Q) (ndigits : nat) : Q :=
  let s := Z.to_pos (10 ^ Z.of_nat ndigits) in
  Qmake (round_half_even (x * inject_Z (Zpos s))%Q) s.

End PyNum.
Export PyNum.

(** ** Python strings *)

Module PyStr.

(** [str.isspace] on one character (code points below 256). *)
Definition isspace (c : ascii) : bool :=
  let n := nat_of_ascii c in
  (((9 <=? n) && (n <=? 13)) || ((28 <=? n) && (n <=? 32))
   || (n =? 133) || (n =? 160))%nat.

(** [str.lstrip()]. *)
Fixpoint lstrip (s : string) : string :=
  match s with
  | EmptyString => EmptyString
  | String c s' => if isspace c then lstrip s' else s
  end.

(** [str.rstrip()]. *)
Fixpoint rstrip (s : string) : string :=
  match s with
  | EmptyString => EmptyString
  | String c s' =>
      match rstrip s' with
      | EmptyString => if isspace c then EmptyString else String c EmptyString
      | r => String c r
      end
  end.

(** [str.strip()]. *)
Definition strip (s : string) : string := rstrip (lstrip s).

(** [str.lower()] on one character: A-Z and the Latin-1 capitals. *)
Definition lower_char (c : ascii) : ascii :=
  let n := nat_of_ascii c in
  if (((65 <=? n) && (n <=? 90))
      || ((192 <=? n) && (n <=? 222) && negb (n =? 215)))%nat
  then ascii_of_nat (n + 32) else c.

(** [str.lower()]. *)
Fixpoint lower (s : string) : string :=
  match s with
  | EmptyString => EmptyString
  | String c s' => String (lower_char c) (lower s')
  end.

(** [s[:n]]. *)
Definition prefix (n : nat) (s : string) : string := substring 0 n s.

(** [str.split()] with no separator: the maximal runs of non-space
    characters.  [cur] is the run being read, reversed. *)
Fixpoint split_aux (cur : list ascii) (s : string) : list string :=
  let flush (rest : list string) :=
    match cur with
    | [] => rest
    | _ => string_of_list_ascii (rev cur) :: rest
    end in
  match s with
  | EmptyString => flush []
  | String c s' =>
      if isspace c then flush (split_aux [] s')
      else split_aux (c :: cur) s'
  end.

Definition split (s : string) : list string := split_aux [] s.

(** [sep.join(words)]. *)
Fixpoint join (sep : string) (words : list string) : string :=
  match words with
  | [] => EmptyString
  | [w] => w
  | w :: ws => w ++ sep ++ join sep ws
  end.

(** Truth value of a string: [not s] is [negb (truthy s)]. *)
Definition truthy (s : string) : bool :=
  match s with EmptyString => false | _ => true end.

End PyStr.
Export PyStr.

(** ** Values, dictionaries and exceptions *)

Inductive pyval : Type :=
| PNone
| PInt (z : Z)
| PFloat (q : Q)
| PStr (s : string).

Abbreviation dict := (gmap string pyval).

(** The two exception classes the handlers tell apart: [except Exception]
    catches the first and lets the second through. *)
Inductive exn : Type :=
| Exception (msg : string)
| BaseException (msg : string).

Inductive exc (A : Type) : Type :=
| Ok (a : A)
| Raise (e : exn).
Arguments Ok {A} a.
Arguments Raise {A} e.

Definition bind {A B} (m : exc A) (k : A -> exc B) : exc B :=
  match m with
  | Ok a => k a
  | Raise e => Raise e
  end.

Declare Scope exc_scope.
Delimit Scope exc_scope with exc.
Notation "x <- m ;; k" := (bind m (fun x => k))
  (at level 100, m at next level, right associativity) : exc_scope.

(** [try: body except Exception as e: handler(str(e))]. *)
Definition try_except {A} (body : exc A) (handler : string -> exc A) : exc A :=
  match body with
  | Raise (Exception msg) => handler msg
  | other => other
  end.

(** ** app/model.py *)

(** What the engine gets from outside. *)
Record World : Type := {
  (** whether [from transformers import pipeline] succeeded *)
  TRANSFORMERS_AVAILABLE : bool;
  (** the outcome of [pipeline("sentiment-analysis", model=...)]; a loaded
      model maps a text to the [label] and [score] of its first result *)
  pipeline : exc (string -> exc (string * Q));
  (** [TextBlob(text).sentiment]: polarity and subjectivity *)
  TextBlob_sentiment : string -> exc (Q * Q);
  (** [datetime.now().isoformat()] *)
  now : string;
}.

Record SentimentAnalyzer : Type := {
  model_type : string;
  transformer_model : option (string -> exc (string * Q));
}.

Section Model.

Variable w : World.

(** [SentimentAnalyzer.__init__]. *)
Definition __init__ (requested : string) : exc SentimentAnalyzer :=
  let self := {| model_type := requested; transformer_model := None |} in
  if requested =? "transformers" then
    if TRANSFORMERS_AVAILABLE w then
      try_except
        (m <- pipeline w ;;
         Ok {| model_type := model_type self; transformer_model := Some m |})%exc
        (fun _ => Ok {| model_type := "textblob";
                        transformer_model := transformer_model self |})
    else Ok {| model_type := "textblob";
               transformer_model := transformer_model self |}
  else Ok self.

(** The branch on polarity in [analyze_with_textblob]: label and raw
    confidence. *)
Definition classify (polarity : Q) : string * Q :=
  if Qltb (1 # 10) polarity then
    ("Positive", py_min (polarity * 100) 100)
  else if Qltb polarity (- (1 # 10)) then
    ("Negative", py_min (py_abs polarity * 100) 100)
  else
    ("Neutral", (100 - py_abs polarity * 100)%Q).

(** [SentimentAnalyzer.analyze_with_textblob]. *)
Definition analyze_with_textblob (text : string) : exc dict :=
  (sentiment <- TextBlob_sentiment w text ;;
   let '(polarity, subjectivity) := sentiment in
   let '(sentiment, confidence) := classify polarity in
   Ok ({[ "sentiment" := PStr sentiment;
          "polarity" := PFloat (py_round polarity 3);
          "subjectivity" := PFloat (py_round subjectivity 3);
          "confidence" := PFloat (py_round confidence 2);
          "model" := PStr "TextBlob" ]} : dict))%exc.

(** The text handed to the pipeline: at most 512 words. *)
Definition truncate (text : string) : string :=
  let max_length := 512%nat in
  if (max_length <? List.length (split text))%nat
  then join " " (firstn max_length (split text))
  else text.

(** [SentimentAnalyzer.analyze_with_transformers]. *)
Definition analyze_with_transformers (self : SentimentAnalyzer)
    (text : string) : exc dict :=
  match transformer_model self with
  | None => analyze_with_textblob text
  | Some model =>
      let text := truncate text in
      try_except
        (result <- model text ;;
         let '(label, score) := result in
         let sentiment :=
           if label =? "POSITIVE" then "Positive"
           else if label =? "NEGATIVE" then "Negative"
           else "Neutral" in
         Ok ({[ "sentiment" := PStr sentiment;
                "confidence" := PFloat (py_round (score * 100) 2);
                "score" := PFloat (py_round score 3);
                "model" := PStr "DistilBERT" ]} : dict))%exc
        (fun _ => analyze_with_textblob text)
  end.

(** [SentimentAnalyzer.analyze]. *)
Definition analyze (self : SentimentAnalyzer) (text : string) : exc dict :=
  if negb (truthy text) || negb (truthy (strip text)) then
    Ok ({[ "error" := PStr "Empty text provided";
           "sentiment" := PStr "Neutral";
           "confidence" := PInt 0 ]} : dict)
  else if model_type self =? "transformers" then
    analyze_with_transformers self text
  else
    analyze_with_textblob text.

(** [analyze_sentiment]: a fresh analyzer per call. *)
Definition analyze_sentiment (text : string) (requested : string) : exc dict :=
  (analyzer <- __init__ requested ;; analyze analyzer text)%exc.

End Model.

(** ** app/main.py *)

(** A parsed JSON document, as [request.get_json()] returns it. *)
#[local] Set Warnings "-register-all".
Inductive json : Type :=
| JNull
| JBool (b : bool)
| JInt (z : Z)
| JFloat (q : Q)
| JStr (s : string)
| JArr (items : list json)
| JObj (members : list (string * json)).
#[local] Set Warnings "register-all".

Module Json.

(** Truth value: [not data] is [negb (truthy data)]. *)
Definition truthy (data : json) : bool :=
  match data with
  | JNull => false
  | JBool b => b
  | JInt z => negb (z =? 0)%Z
  | JFloat q => negb (Qeq_bool q 0)
  | JStr s => PyStr.truthy s
  | JArr items => match items with [] => false | _ => true end
  | JObj members => match members with [] => false | _ => true end
  end.

(** [type(data).__name__]. *)
Definition type_name (data : json) : string :=
  match data with
  | JNull => "NoneType"
  | JBool _ => "bool"
  | JInt _ => "int"
  | JFloat _ => "float"
  | JStr _ => "str"
  | JArr _ => "list"
  | JObj _ => "dict"
  end.

(** Raised by a call of a method the value does not have. *)
Definition AttributeError {A} (data : json) (attr : string) : exc A :=
  Raise (Exception ("'" ++ type_name data ++ "' object has no attribute '"
                    ++ attr ++ "'")).

(** The value under [key]; the keys of a parsed object are distinct. *)
Fixpoint lookup (key : string) (members : list (string * json)) : option json :=
  match members with
  | [] => None
  | (k, v) :: rest => if k =? key then Some v else lookup key rest
  end.

(** [data.get(key, default)]: only a dict has the method. *)
Definition get (data : json) (key : string) (default : json) : exc json :=
  match data with
  | JObj members => Ok (from_option id default (lookup key members))
  | _ => AttributeError data "get"
  end.

(** [value.strip()] and [value.lower()]: only a string has them. *)
Definition str_method (name : string) (f : string -> string) (value : json)
    : exc string :=
  match value with
  | JStr s => Ok (f s)
  | _ => AttributeError value name
  end.

End Json.

(** A JSON body with its status code. *)
Definition response : Type := dict * Z.

(** The bound on [len(analysis_history)]. *)
Definition capacity : nat := 100.

(** The bookkeeping of [/analyze] on [analysis_history]: [append], then
    [pop(0)] once the list is longer than 100.  Neither step looks inside an
    entry, so the entry type is left open. *)
Definition record {A} (entry : A) (analysis_history : list A) : list A :=
  let analysis_history := (analysis_history ++ [entry])%list in
  if (capacity <? List.length analysis_history)%nat
  then tail analysis_history
  else analysis_history.

(** The entry [/analyze] stores for a result.  [result["timestamp"]] was
    assigned on the line before, so that lookup finds the key. *)
Definition history_entry (text : string) (result : dict) : dict :=
  {[ "text" := PStr (prefix 100 text);
     "sentiment" := default PNone (result !! "sentiment");
     "confidence" := default PNone (result !! "confidence");
     "timestamp" := default PNone (result !! "timestamp") ]}.

(** The 400 and 500 answers. *)
Definition bad_request (error message : string) : response :=
  ({[ "error" := PStr error; "message" := PStr message ]}, 400%Z).

Definition server_error (message : string) : response :=
  ({[ "error" := PStr "Internal server error"; "message" := PStr message ]},
   500%Z).

Section Endpoints.

Variable w : World.

(** The [try] block of [analyze()]: the outcome and the list afterwards. *)
Definition analyze_try (get_json : exc json) (analysis_history : list dict)
    : exc response * list dict :=
  match get_json with
  | Raise e => (Raise e, analysis_history)
  | Ok data =>
      if negb (Json.truthy data) then
        (Ok (bad_request "No JSON data provided"
               "Please send JSON data with 'text' field"),
         analysis_history)
      else
        match (v <- Json.get data "text" (JStr "") ;;
               text <- Json.str_method "strip" strip v ;;
               v <- Json.get data "model" (JStr "textblob") ;;
               model_type <- Json.str_method "lower" lower v ;;
               Ok (text, model_type))%exc with
        | Raise e => (Raise e, analysis_history)
        | Ok (text, model_type) =>
            if negb (PyStr.truthy text) then
              (Ok (bad_request "Empty text provided"
                     "Please provide text to analyze"),
               analysis_history)
            else
              let model_type :=
                if (model_type =? "textblob") || (model_type =? "transformers")
                then model_type else "textblob" in
              match analyze_sentiment w text model_type with
              | Raise e => (Raise e, analysis_history)
              | Ok result =>
                  let result := <["text" := PStr text]> result in
                  let result := <["timestamp" := PStr (now w)]> result in
                  (Ok (result, 200%Z),
                   record (history_entry text result) analysis_history)
              end
        end
  end.

(** [analyze()], the handler of [POST /analyze]. *)
Definition analyze_endpoint (get_json : exc json)
    (analysis_history : list dict) : exc response * list dict :=
  match analyze_try get_json analysis_history with
  | (Raise (Exception msg), analysis_history) =>
      (Ok (server_error msg), analysis_history)
  | other => other
  end.

End Endpoints.

(** [l[start:]]. *)
Definition slice_from {A} (start : Z) (l : list A) : list A :=
  let n := Z.of_nat (List.length l) in
  let start := if (start <? 0)%Z then Z.max (start + n) 0 else Z.min start n in
  skipn (Z.to_nat start) l.

(** [history()], the handler of [GET /history]: the fields [count] and
    [history] of the body (the status is always 200).  [limit_arg] is
    [request.args.get("limit", type=int)], absent when the parameter is missing
    or is not an integer.  Entries are only sliced, never inspected. *)
Definition history {A} (limit_arg : option Z) (analysis_history : list A)
    : nat * list A :=
  let limit := default 50%Z limit_arg in
  let limit := Z.min limit 100 in
  (List.length analysis_history, slice_from (- limit) analysis_history).

(** [item.get(key) == s]. *)
Definition get_is (item : dict) (key : string) (s : string) : bool :=
  match item !! key with
  | Some (PStr t) => t =? s
  | _ => false
  end.

(** [sum(1 for item in analysis_history if item.get("sentiment") == label)]. *)
Definition count_sentiment (label : string) (analysis_history : list dict) : nat :=
  List.length (List.filter (fun item => get_is item "sentiment" label)
                 analysis_history).

(** [acc + value] on numbers; anything else is a [TypeError]. *)
Definition add_number (acc : Q) (value : pyval) : exc Q :=
  match value with
  | PInt z => Ok (acc + inject_Z z)%Q
  | PFloat q => Ok (acc + q)%Q
  | _ => Raise (Exception "unsupported operand type(s) for +")
  end.

(** [sum(item.get("confidence", 0) for item in analysis_history)]. *)
Fixpoint sum_confidence (acc : Q) (analysis_history : list dict) : exc Q :=
  match analysis_history with
  | [] => Ok acc
  | item :: rest =>
      (acc <- add_number acc (default (PInt 0) (item !! "confidence")) ;;
       sum_confidence acc rest)%exc
  end.

(** [round((count / total) * 100, 2)]. *)
Definition percentage (count total : nat) : Q :=
  py_round (inject_Z (Z.of_nat count) / inject_Z (Z.of_nat total) * 100) 2.

(** [stats()], the handler of [GET /stats]: the object under ["stats"] with
    status 200, or the body of the 500 answer. *)
Definition stats (analysis_history : list dict) : exc response :=
  try_except
    (match analysis_history with
     | [] =>
         Ok ({[ "total" := PInt 0; "positive" := PInt 0;
                "negative" := PInt 0; "neutral" := PInt 0 ]}, 200%Z)
     | _ =>
         let total := List.length analysis_history in
         let positive := count_sentiment "Positive" analysis_history in
         let negative := count_sentiment "Negative" analysis_history in
         let neutral := count_sentiment "Neutral" analysis_history in
         total_confidence <- sum_confidence 0 analysis_history ;;
         let avg_confidence :=
           (total_confidence / inject_Z (Z.of_nat total))%Q in
         Ok ({[ "total" := PInt (Z.of_nat total);
                "positive" := PInt (Z.of_nat positive);
                "negative" := PInt (Z.of_nat negative);
                "neutral" := PInt (Z.of_nat neutral);
                "positive_percentage" := PFloat (percentage positive total);
                "negative_percentage" := PFloat (percentage negative total);
                "neutral_percentage" := PFloat (percentage neutral total);
                "average_confidence" := PFloat (py_round avg_confidence 2) ]},
             200%Z)
     end)%exc
    (fun msg => Ok (server_error msg)).

(** ** Vocabulary of the properties *)

(** "Empty or whitespace-only": every character is a space character. *)
Definition whitespace_only (text : string) : bool :=
  forallb isspace (list_ascii_of_string text).

(** The ledger after a run of recordings, oldest first. *)
Definition record_all {A} (entries : list A) (analysis_history : list A) : list A :=
  fold_left (fun h entry => record entry h) entries analysis_history.

(** An item whose sentiment is one of the three labels and whose confidence
    is a number. *)
Definition is_number (v : pyval) : bool :=
  match v with
  | PInt _ | PFloat _ => true
  | _ => false
  end.

Definition well_formed (item : dict) : bool :=
  (get_is item "sentiment" "Positive" || get_is item "sentiment" "Negative"
   || get_is item "sentiment" "Neutral")
  && match item !! "confidence" with
     | Some v => is_number v
     | None => false
     end.

(** The last [n] items of a list. *)
Definition last_n {A} (n : nat) (l : list A) : list A :=
  skipn (List.length l - n) l.

(** The states [analysis_history] can be in: empty at import, then changed by
    [/analyze] only. *)
Inductive reachable : list dict -> Prop :=
| reachable_init : reachable []
| reachable_analyze (w : World) (get_json : exc json) (h : list dict) :
    reachable h -> reachable (snd (analyze_endpoint w get_json h)).

(** A request ends in an internal error: status 500, or an exception that
    leaves the handler. *)
Definition internal_error (r : exc response) : Prop :=
  match r with
  | Ok (_, status) => status = 500%Z
  | Raise _ => True
  end.

(** ** Sample worlds *)

(** No [transformers] library; TextBlob scores every text alike. *)
Definition lexicon_world (polarity subjectivity : Q) : World :=
  {| TRANSFORMERS_AVAILABLE := false;
     pipeline := Raise (Exception "No module named 'transformers'");
     TextBlob_sentiment := fun _ => Ok (polarity, subjectivity);
     now := "2025-10-06T12:00:00" |}.

(** The library is there and the pipeline loads as [model]. *)
Definition pipeline_world (model : string -> exc (string * Q))
    (polarity subjectivity : Q) : World :=
  {| TRANSFORMERS_AVAILABLE := true;
     pipeline := Ok model;
     TextBlob_sentiment := fun _ => Ok (polarity, subjectivity);
     now := "2025-10-06T12:00:00" |}.

(** A loaded model whose every call fails. *)
Definition failing_model (text : string) : exc (string * Q) :=
  Raise (Exception "CUDA out of memory").

(** A loaded model that finds every text positive. *)
Definition positive_model (text : string) : exc (string * Q) :=
  Ok ("POSITIVE", (99987 # 100000)%Q).

(** A request to [/analyze] with the one field [text]. *)
Definition post (text : string) : exc json := Ok (JObj [("text", JStr text)]).

(** The ledger after one positive, one negative and one neutral analysis. *)
Definition sample_ledger : list dict :=
  let h := snd (analyze_endpoint (lexicon_world (3 # 4) (9 # 10))
                  (post "This is amazing!") []) in
  let h := snd (analyze_endpoint (lexicon_world (- (1)) 1)
                  (post "This is terrible!") h) in
  snd (analyze_endpoint (lexicon_world 0 0) (post "It arrived.") h).

(** TextBlob itself fails. *)
Definition broken_world : World :=
  {| TRANSFORMERS_AVAILABLE := false;
     pipeline := Raise (Exception "No module named 'transformers'");
     TextBlob_sentiment := fun _ => Raise (Exception "lexicon not found");
     now := "2025-10-06T12:00:00" |}.

(** One field of a returned dictionary; nothing when the call raised. *)
Definition field (key : string) (r : exc dict) : option pyval :=
  match r with
  | Ok d => d !! key
  | Raise _ => None
  end.

(** ** Shapes of the returned dictionaries *)

(** The sentiment is one of the three labels and the confidence a number. *)
Definition labelled (d : dict) : Prop :=
  (d !! "sentiment" = Some (PStr "Positive")
   \/ d !! "sentiment" = Some (PStr "Negative")
   \/ d !! "sentiment" = Some (PStr "Neutral"))
  /\ exists v, d !! "confidence" = Some v /\ is_number v = true.

(** The empty-text answer: a marker and no backend field. *)
Definition shape_empty (d : dict) : Prop :=
  d !! "error" = Some (PStr "Empty text provided")
  /\ d !! "confidence" = Some (PInt 0)
  /\ d !! "model" = None /\ d !! "polarity" = None
  /\ d !! "subjectivity" = None /\ d !! "score" = None.

(** A TextBlob answer: polarity and subjectivity, no score. *)
Definition shape_lexicon (d : dict) : Prop :=
  d !! "model" = Some (PStr "TextBlob")
  /\ (exists p, d !! "polarity" = Some (PFloat p))
  /\ (exists s, d !! "subjectivity" = Some (PFloat s))
  /\ d !! "score" = None /\ d !! "error" = None.

(** A DistilBERT answer: a score, neither polarity nor subjectivity. *)
Definition shape_pretrained (d : dict) : Prop :=
  d !! "model" = Some (PStr "DistilBERT")
  /\ (exists s, d !! "score" = Some (PFloat s))
  /\ d !! "polarity" = None /\ d !! "subjectivity" = None
  /\ d !! "error" = None.

(** A word as [str.split()] yields it: not empty, no space character. *)
Definition proper_word (word : string) : Prop :=
  word <> ""
  /\ Forall (fun c => isspace c = false) (list_ascii_of_string word).

(** What [/analyze] keeps of an analysis: an excerpt of at most 100
    characters that is not empty, a label with a numeric confidence, and a
    timestamp. *)
Definition stored_entry (item : dict) : Prop :=
  (exists excerpt, item !! "text" = Some (PStr excerpt)
                   /\ (String.length excerpt <= 100)%nat /\ excerpt <> "")
  /\ labelled item
  /\ exists stamp, item !! "timestamp" = Some (PStr stamp).

(** ** app/dashboard.py *)

(** How [requests.post] ends: a response, with its status code and what
    [response.json()] gives, a [ConnectionError], or another exception. *)
Inductive http_outcome : Type :=
| Response (status_code : Z) (json : exc dict)
| ConnectionError
| OtherError (e : exn).

(** [analyze_text_api]: the request itself is the environment's business, the
    function is what it makes of the outcome. *)
Definition analyze_text_api (outcome : http_outcome) : exc dict :=
  match outcome with
  | Response status_code json =>
      try_except
        (if (status_code =? 200)%Z then json
         else (body <- json ;;
               Ok ({[ "error" := default (PStr "Unknown error")
                                   (body !! "message") ]} : dict))%exc)
        (fun msg => Ok {[ "error" := PStr msg ]})
  | ConnectionError =>
      Ok {[ "error" := PStr
              "Cannot connect to API. Make sure Flask server is running on port 5000." ]}
  | OtherError (Exception msg) => Ok {[ "error" := PStr msg ]}
  | OtherError (BaseException msg) => Raise (BaseException msg)
  end.

(** The two entries of [st.session_state] the script keeps. *)
Record session : Type := {
  analysis_results : list dict;
  sentiment_counts : gmap string Z;
}.

(** The session of a first run. *)
Definition new_session : session :=
  {| analysis_results := [];
     sentiment_counts :=
       {[ "Positive" := 0%Z; "Negative" := 0%Z; "Neutral" := 0%Z ]} |}.

(** How the block under the button ends: it runs through, the lookup
    [sentiment_counts[sentiment]] raises [KeyError], or an exception of
    [analyze_text_api] escapes. *)
Inductive click_outcome : Type :=
| Completed
| KeyError (key : pyval)
| Escaped (e : exn).

(** The block under [if analyze_button and feedback_text:] for a click on the
    button, as far as it changes the session. *)
Definition on_analyze (feedback_text : string) (outcome : http_outcome)
    (timestamp : string) (st : session) : click_outcome * session :=
  if negb (truthy feedback_text) then (Completed, st)
  else
    match analyze_text_api outcome with
    | Raise e => (Escaped e, st)
    | Ok result =>
        match result !! "error" with
        | Some _ => (Completed, st)
        | None =>
            let result := <["timestamp" := PStr timestamp]> result in
            let st := {| analysis_results :=
                           (analysis_results st ++ [result])%list;
                         sentiment_counts := sentiment_counts st |} in
            let sentiment := default (PStr "Neutral") (result !! "sentiment") in
            match sentiment with
            | PStr key =>
                match sentiment_counts st !! key with
                | Some count =>
                    (Completed,
                     {| analysis_results := analysis_results st;
                        sentiment_counts :=
                          <[key := (count + 1)%Z]> (sentiment_counts st) |})
                | None => (KeyError sentiment, st)
                end
            | _ => (KeyError sentiment, st)
            end
        end
    end.

(** The counters are those of the three labels and add up to the number of
    stored results. *)
Definition session_ok (st : session) : Prop :=
  exists p n u,
    sentiment_counts st !! "Positive" = Some p
    /\ sentiment_counts st !! "Negative" = Some n
    /\ sentiment_counts st !! "Neutral" = Some u
    /\ (p + n + u)%Z = Z.of_nat (List.length (analysis_results st)).

(** A reply body with nothing but a sentiment. *)
Definition bare_reply (label : string) : dict := {[ "sentiment" := PStr label ]}.

(** * Properties *)

(** ** Numbers *)

Section NumberFacts.

Local Open Scope Q_scope.











End NumberFacts.
(** ** Strings *)

Lemma lstrip_whitespace_only (s : string) :
  whitespace_only s = true -> lstrip s = "".
Proof.
  unfold whitespace_only. induction s as [| c s IH]; cbn; [reflexivity |].
  destruct (isspace c); cbn; [exact IH | discriminate].
Qed.

Lemma lstrip_head (s : string) :
  whitespace_only s = false ->
  exists c r, lstrip s = String c r /\ isspace c = false.
Proof.
  unfold whitespace_only. induction s as [| c s IH]; cbn; [discriminate |].
  destruct (isspace c) eqn:E; cbn; [exact IH | eauto].
Qed.

Lemma rstrip_head (c : ascii) (r : string) :
  isspace c = false -> rstrip (String c r) <> "".
Proof.
  intros E. cbn. destruct (rstrip r); [rewrite E |]; discriminate.
Qed.

(** The guard of [analyze] fires on the whitespace-only texts and on no
    other. *)
Lemma guard_whitespace_only (text : string) :
  negb (truthy text) || negb (truthy (strip text)) = whitespace_only text.
Proof.
  destruct (whitespace_only text) eqn:E.
  - unfold strip. rewrite (lstrip_whitespace_only _ E). cbn. apply orb_true_r.
  - destruct (lstrip_head _ E) as (c & r & Hl & Hc).
    assert (Ht : truthy text = true).
    { destruct text; [discriminate E | reflexivity]. }
    unfold strip. rewrite Ht, Hl. pose proof (rstrip_head c r Hc) as Hr.
    destruct (rstrip (String c r)); [congruence | reflexivity].
Qed.

(** ** The lexicon backend *)

Section Lexicon.

Variable w : World.

Lemma analyze_with_textblob_eq (text : string) (p s : Q) :
  TextBlob_sentiment w text = Ok (p, s) ->
  analyze_with_textblob w text =
    Ok {[ "sentiment" := PStr (fst (classify p));
          "polarity" := PFloat (py_round p 3);
          "subjectivity" := PFloat (py_round s 3);
          "confidence" := PFloat (py_round (snd (classify p)) 2);
          "model" := PStr "TextBlob" ]}.
Proof.
  intros H. unfold analyze_with_textblob. rewrite H. cbn [bind].
  destruct (classify p). reflexivity.
Qed.

End Lexicon.

(** ** The engine *)

Section Engine.

Variable w : World.

Lemma init_textblob : __init__ w "textblob" =
  Ok {| model_type := "textblob"; transformer_model := None |}.
Proof. reflexivity. Qed.

(** When the library is absent or the model fails to load, the analyzer is
    a TextBlob one. *)
Lemma init_unavailable :
  TRANSFORMERS_AVAILABLE w = false \/
    (exists msg, pipeline w = Raise (Exception msg)) ->
  __init__ w "transformers" =
    Ok {| model_type := "textblob"; transformer_model := None |}.
Proof.
  unfold __init__. cbn [String.eqb Ascii.eqb Bool.eqb]. intros [H | [msg H]].
  - rewrite H. reflexivity.
  - rewrite H. destruct (TRANSFORMERS_AVAILABLE w); reflexivity.
Qed.


Lemma analyze_guard (self : SentimentAnalyzer) (text : string) :
  whitespace_only text = true ->
  analyze w self text =
    Ok {[ "error" := PStr "Empty text provided";
          "sentiment" := PStr "Neutral";
          "confidence" := PInt 0 ]}.
Proof.
  intros H. unfold analyze. rewrite guard_whitespace_only, H. reflexivity.
Qed.

Lemma analyze_dispatch (self : SentimentAnalyzer) (text : string) :
  whitespace_only text = false ->
  analyze w self text =
    if model_type self =? "transformers"
    then analyze_with_transformers w self text
    else analyze_with_textblob w text.
Proof.
  intros H. unfold analyze. rewrite guard_whitespace_only, H. reflexivity.
Qed.

Lemma truncate_short (text : string) :
  (List.length (split text) <= 512)%nat -> truncate text = text.
Proof.
  intros H. unfold truncate.
  destruct (Nat.ltb_spec 512 (List.length (split text))); [lia | reflexivity].
Qed.

(** A text of 513 words loses its last word. *)
Example truncate_long :
  truncate (join " " (repeat "good" 513)) = join " " (repeat "good" 512).
Proof. vm_compute. reflexivity. Qed.

End Engine.







(** C3.  On an empty or whitespace-only text [analyze] returns, whatever the
    analyzer's backend: sentiment Neutral, confidence 0 and the marker
    ["error": "Empty text provided"].  So does [analyze_sentiment] for every
    requested backend whose analyzer gets built. *)
Theorem empty_text_result (w : World) (self : SentimentAnalyzer) (text : string) :
  whitespace_only text = true ->
  exists d,
    analyze w self text = Ok d /\
    d !! "sentiment" = Some (PStr "Neutral") /\
    d !! "confidence" = Some (PInt 0) /\
    d !! "error" = Some (PStr "Empty text provided") /\
    analyze_sentiment w text "textblob" = Ok d /\
    (forall requested analyzer,
        __init__ w requested = Ok analyzer ->
        analyze_sentiment w text requested = Ok d).
Proof.
  intros H. eexists. split; [apply analyze_guard; exact H |].
  split; [reflexivity |]. split; [reflexivity |]. split; [reflexivity |].
  split.
  - unfold analyze_sentiment. rewrite init_textblob. cbn [bind].
    apply analyze_guard; exact H.
  - intros requested analyzer Hi. unfold analyze_sentiment. rewrite Hi.
    cbn [bind]. apply analyze_guard; exact H.
Qed.

Lemma empty_text_result_witness :
  field "error"
    (analyze (pipeline_world failing_model 0 0)
       {| model_type := "transformers"; transformer_model := Some failing_model |}
       "  ")
    = Some (PStr "Empty text provided") /\
  field "confidence" (analyze_sentiment (lexicon_world 0 0) "" "transformers")
    = Some (PInt 0).
Proof.
  split.
  - destruct (empty_text_result (pipeline_world failing_model 0 0)
                {| model_type := "transformers";
                   transformer_model := Some failing_model |} "  " eq_refl)
      as (d & -> & _ & _ & He & _).
    exact He.
  - destruct (empty_text_result (lexicon_world 0 0)
                {| model_type := "textblob"; transformer_model := None |}
                "" eq_refl)
      as (d & _ & _ & Hc & _ & _ & Hany).
    rewrite (Hany "transformers" _ eq_refl). exact Hc.
Defined.

(** ** Fallback *)



(** C4 (as amended).  For a text that is not whitespace-only, asking for the
    transformers backend when the library is absent or the model failed to
    load returns what the lexicon backend returns for that text, with
    ["model": "TextBlob"]; nothing is raised.  The same holds for
    [analyze_with_transformers] on any analyzer without a loaded model. *)
Theorem unavailable_falls_back (w : World) (text : string) (p s : Q) :
  whitespace_only text = false ->
  TRANSFORMERS_AVAILABLE w = false \/
    (exists msg, pipeline w = Raise (Exception msg)) ->
  TextBlob_sentiment w text = Ok (p, s) ->
  exists d,
    analyze_sentiment w text "transformers" = Ok d /\
    analyze_with_textblob w text = Ok d /\
    d !! "model" = Some (PStr "TextBlob") /\
    d !! "score" = None /\
    (forall self, transformer_model self = None ->
                  analyze_with_transformers w self text = Ok d).
Proof.
  intros Hne Hun HTB.
  pose proof (analyze_with_textblob_eq _ _ _ _ HTB) as Heq.
  eexists. split; [| split; [exact Heq |]].
  - unfold analyze_sentiment. rewrite (init_unavailable _ Hun). cbn [bind].
    rewrite (analyze_dispatch _ _ _ Hne). exact Heq.
  - split; [reflexivity |]. split; [reflexivity |].
    intros self Hnone. unfold analyze_with_transformers. rewrite Hnone.
    exact Heq.
Qed.

Lemma unavailable_falls_back_witness :
  field "model"
    (analyze_sentiment (lexicon_world (3 # 4) (9 # 10)) "This is amazing!"
       "transformers")
    = Some (PStr "TextBlob").
Proof.
  destruct (unavailable_falls_back (lexicon_world (3 # 4) (9 # 10))
              "This is amazing!" (3 # 4) (9 # 10) eq_refl
              (or_introl eq_refl) eq_refl)
    as (d & -> & _ & Hm & _).
  exact Hm.
Defined.

(** C4 as first stated fails on a text that is not empty but whitespace-only:
    with the library absent, [analyze_sentiment " " "transformers"] returns
    the empty-text dictionary, which names no backend and is not what the
    lexicon backend returns for that text. *)
Lemma unavailable_blank_not_lexicon :
  let w := lexicon_world (3 # 4) (9 # 10) in
  " " <> "" /\
  TRANSFORMERS_AVAILABLE w = false /\
  field "error" (analyze_sentiment w " " "transformers")
    = Some (PStr "Empty text provided") /\
  field "model" (analyze_sentiment w " " "transformers") = None /\
  field "model" (analyze_with_textblob w " ") = Some (PStr "TextBlob").
Proof. cbv zeta. repeat split; try reflexivity. discriminate. Qed.






(** ** The ledger *)

Ltac cap := unfold capacity in *; lia.

Section Ledger.

Context {A : Type}.
Implicit Types (h entries : list A) (entry : A).

Lemma record_not_full entry h :
  (List.length h < capacity)%nat -> record entry h = (h ++ [entry])%list.
Proof.
  intros H. unfold record. rewrite length_app. cbn [List.length].
  destruct (Nat.ltb_spec capacity (List.length h + 1)); [cap | reflexivity].
Qed.

Lemma record_full entry h :
  (capacity <= List.length h)%nat -> record entry h = (tail h ++ [entry])%list.
Proof.
  intros H. unfold record. rewrite length_app. cbn [List.length].
  destruct (Nat.ltb_spec capacity (List.length h + 1)); [| cap].
  destruct h; [cbn [List.length] in H; cap | reflexivity].
Qed.

Lemma record_length_le entry h :
  (List.length h <= capacity)%nat -> (List.length (record entry h) <= capacity)%nat.
Proof.
  intros H. destruct (Nat.lt_ge_cases (List.length h) capacity) as [Hlt | Hge].
  - rewrite record_not_full, length_app by exact Hlt. cbn. cap.
  - rewrite record_full, length_app, length_tl by exact Hge. cbn. cap.
Qed.

(** One recording keeps the window of the last 100 items. *)
Lemma record_last_n entry h :
  record entry (last_n capacity h) = last_n capacity (h ++ [entry]).
Proof.
  unfold last_n. rewrite length_app. cbn [List.length].
  destruct (Nat.lt_ge_cases (List.length h) capacity) as [Hlt | Hge].
  - replace (List.length h - capacity)%nat with 0%nat by cap.
    replace (List.length h + 1 - capacity)%nat with 0%nat by cap.
    cbn [skipn]. apply record_not_full, Hlt.
  - rewrite record_full by (rewrite length_skipn; cap).
    change (tail (skipn (List.length h - capacity) h))
      with (skipn 1 (skipn (List.length h - capacity) h)).
    rewrite skipn_skipn, skipn_app.
    replace (List.length h + 1 - capacity)%nat
      with (1 + (List.length h - capacity))%nat by cap.
    replace (1 + (List.length h - capacity) - List.length h)%nat with 0%nat
      by cap.
    reflexivity.
Qed.

Lemma record_all_last_n entries : forall h,
  record_all entries (last_n capacity h) = last_n capacity (h ++ entries).
Proof.
  unfold record_all.
  induction entries as [| entry entries IH]; intros h; cbn [fold_left].
  - rewrite app_nil_r. reflexivity.
  - rewrite record_last_n, IH, <- app_assoc. reflexivity.
Qed.

Lemma record_all_length_le entries : forall h,
  (List.length h <= capacity)%nat ->
  (List.length (record_all entries h) <= capacity)%nat.
Proof.
  unfold record_all.
  induction entries as [| entry entries IH]; intros h H; cbn [fold_left];
    [exact H |].
  apply IH, record_length_le, H.
Qed.

End Ledger.

(** C6.  The ledger never grows beyond 100 entries, a recording into a full
    ledger drops exactly the oldest entry, and after 100 + k recordings
    (k > 0) into the empty ledger it holds the last 100 of them in order; when
    the entries are pairwise different none of the first k is left. *)
Theorem ledger_bounded_fifo (A : Type) :
  (forall (entries h : list A),
      (List.length h <= capacity)%nat ->
      (List.length (record_all entries h) <= capacity)%nat) /\
  (forall (entry : A) (h : list A),
      List.length h = capacity ->
      record entry h = (tail h ++ [entry])%list) /\
  (forall (entries : list A) (k : nat),
      (0 < k)%nat ->
      List.length entries = (capacity + k)%nat ->
      record_all entries [] = skipn k entries /\
      List.length (record_all entries []) = capacity /\
      (NoDup entries ->
       forall entry, entry ∈ firstn k entries ->
                     entry ∉ record_all entries [])).
Proof.
  split; [| split].
  - intros entries h. apply record_all_length_le.
  - intros entry h Hlen. apply record_full. cap.
  - intros entries k Hk Hlen.
    assert (Heq : record_all entries [] = skipn k entries).
    { change (@nil A) with (last_n capacity (@nil A)).
      rewrite record_all_last_n. unfold last_n. cbn [app].
      f_equal. cap. }
    rewrite Heq. split; [reflexivity |]. split.
    + rewrite length_skipn. cap.
    + intros Hnd entry Hin Hin'.
      rewrite <- (firstn_skipn k entries) in Hnd.
      destruct (proj1 (NoDup_app _ _) Hnd) as (_ & Hdis & _).
      exact (Hdis entry Hin Hin').
Qed.

Lemma ledger_bounded_fifo_witness :
  record_all (seq 0 101) [] = seq 1 100 /\ 0%nat ∉ record_all (seq 0 101) [].
Proof.
  destruct (ledger_bounded_fifo nat) as (_ & _ & H).
  destruct (H (seq 0 101) 1%nat ltac:(repeat constructor) eq_refl) as (Heq & _ & Habs).
  split.
  - rewrite Heq. reflexivity.
  - apply Habs; [apply NoDup_seq | left].
Defined.

(** ** [/history] *)

Section History.

Context {A : Type}.

(** For a positive [limit] the answer is the tail of the list of length
    [min(limit, size, 100)]. *)
Lemma history_positive (limit : Z) (h : list A) :
  (1 <= limit)%Z ->
  let n := Z.to_nat (Z.min limit (Z.min (Z.of_nat (List.length h)) 100)) in
  history (Some limit) h = (List.length h, skipn (List.length h - n) h).
Proof.
  intros Hl. cbv zeta. unfold history, slice_from.
  change (default 50%Z (Some limit)) with limit.
  f_equal.
  destruct (Z.ltb_spec (- Z.min limit 100) 0); [| lia].
  f_equal. lia.
Qed.

(** [limit=0] slices with [-0], that is from the start. *)
Lemma history_zero (h : list A) : history (Some 0%Z) h = (List.length h, h).
Proof.
  unfold history, slice_from. change (default 50%Z (Some 0%Z)) with 0%Z.
  change (- Z.min 0 100)%Z with 0%Z. cbn [Z.ltb Z.compare].
  rewrite Z.min_l by lia. reflexivity.
Qed.

End History.

(** C7 (as amended).  For every ledger and every positive limit, [/history]
    returns the last [min(limit, size, 100)] entries in the order they were
    recorded, oldest first. *)
Theorem history_recent (A : Type) (limit : Z) (h : list A) :
  (1 <= limit)%Z ->
  let n := Z.to_nat (Z.min limit (Z.min (Z.of_nat (List.length h)) 100)) in
  snd (history (Some limit) h) = skipn (List.length h - n) h /\
  List.length (snd (history (Some limit) h)) = n /\
  (firstn (List.length h - n) h ++ snd (history (Some limit) h))%list = h.
Proof.
  intros Hl n. subst n. rewrite (history_positive limit h Hl). cbn [snd].
  split; [reflexivity |]. split.
  - rewrite length_skipn. lia.
  - apply firstn_skipn.
Qed.

Lemma history_recent_witness :
  snd (history (Some 2%Z) ["first"; "second"; "third"]) = ["second"; "third"].
Proof.
  destruct (history_recent string 2 ["first"; "second"; "third"]) as (H & _).
  - discriminate.
  - rewrite H. reflexivity.
Defined.

(** C7 as first stated fails: the entries come oldest first, not most recent
    first. *)
Lemma history_not_most_recent_first :
  let h := ["first"; "second"; "third"] in
  snd (history (Some 2%Z) h) = ["second"; "third"] /\
  snd (history (Some 2%Z) h) <> firstn 2 (rev h).
Proof. cbv zeta. split; [reflexivity | discriminate]. Qed.

(** ** [/analyze] *)

Section Analyze.

Variable w : World.

(** The [try] block either leaves the list alone and does not answer 200,
    or it answers 200 after a successful analysis and records its entry. *)
Lemma analyze_try_cases (get_json : exc json) (h : list dict) :
  (snd (analyze_try w get_json h) = h /\
   forall body, fst (analyze_try w get_json h) <> Ok (body, 200%Z)) \/
  (exists text requested result,
      analyze_sentiment w text requested = Ok result /\
      let result := <["timestamp" := PStr (now w)]>
                      (<["text" := PStr text]> result) in
      analyze_try w get_json h =
        (Ok (result, 200%Z), record (history_entry text result) h)).
Proof.
  unfold analyze_try.
  destruct get_json as [data | e]; [| left; split; [reflexivity | discriminate]].
  destruct (Json.truthy data);
    [| left; split; [reflexivity | discriminate]].
  cbn [negb].
  destruct (bind (Json.get data "text" (JStr "")) _) as [[text requested] | e];
    [| left; split; [reflexivity | discriminate]].
  destruct (PyStr.truthy text);
    [| left; split; [reflexivity | discriminate]].
  cbn [negb].
  destruct (analyze_sentiment w text _) as [result | e] eqn:E;
    [| left; split; [reflexivity | discriminate]].
  right. eexists _, _, _. split; [exact E | reflexivity].
Qed.

(** The handler answers the caught exceptions with a 500 and passes the
    list on. *)
Lemma analyze_endpoint_unchanged (get_json : exc json) (h : list dict) :
  snd (analyze_try w get_json h) = h ->
  snd (analyze_endpoint w get_json h) = h.
Proof.
  unfold analyze_endpoint.
  destruct (analyze_try w get_json h) as [[r | [msg | msg]] h'];
    cbn [snd]; auto.
Qed.

Lemma analyze_endpoint_cases (get_json : exc json) (h : list dict) :
  snd (analyze_endpoint w get_json h) = h \/
  exists text requested result,
    analyze_sentiment w text requested = Ok result /\
    analyze_endpoint w get_json h =
      (Ok (<["timestamp" := PStr (now w)]> (<["text" := PStr text]> result),
           200%Z),
       record (history_entry text
                 (<["timestamp" := PStr (now w)]>
                    (<["text" := PStr text]> result))) h).
Proof.
  destruct (analyze_try_cases get_json h)
    as [[Hs _] | (text & requested & result & Ha & Ht)].
  - left. apply analyze_endpoint_unchanged, Hs.
  - right. exists text, requested, result. split; [exact Ha |].
    unfold analyze_endpoint. cbv zeta in Ht. rewrite Ht. reflexivity.
Qed.

End Analyze.

(** C9.  A request to [/analyze] that ends in an internal error leaves
    [analysis_history] as it was; the list changes only by one recording made
    after [analyze_sentiment] has returned a result. *)
Theorem failed_analysis_not_recorded (w : World) (get_json : exc json)
    (h : list dict) :
  (internal_error (fst (analyze_endpoint w get_json h)) ->
   snd (analyze_endpoint w get_json h) = h) /\
  (snd (analyze_endpoint w get_json h) = h \/
   exists text requested result,
     analyze_sentiment w text requested = Ok result /\
     let result := <["timestamp" := PStr (now w)]>
                     (<["text" := PStr text]> result) in
     analyze_endpoint w get_json h =
       (Ok (result, 200%Z), record (history_entry text result) h)).
Proof.
  pose proof (analyze_endpoint_cases w get_json h) as Hcases.
  split; [| exact Hcases].
  destruct Hcases as [Hs | (text & requested & result & _ & ->)];
    [intros _; exact Hs |].
  cbn [fst internal_error]. intros Hbad. discriminate Hbad.
Qed.

Lemma failed_analysis_not_recorded_witness :
  let request := Ok (JObj [("text", JStr "hello")]) in
  fst (analyze_endpoint broken_world request [])
    = Ok (server_error "lexicon not found") /\
  snd (analyze_endpoint broken_world request []) = [].
Proof.
  cbv zeta. split; [reflexivity |].
  destruct (failed_analysis_not_recorded broken_world
              (Ok (JObj [("text", JStr "hello")])) []) as [H _].
  apply H. reflexivity.
Defined.

(** ** [/stats] *)

Section Shapes.

Variable w : World.

Lemma classify_label (p : Q) :
  fst (classify p) = "Positive" \/ fst (classify p) = "Negative"
  \/ fst (classify p) = "Neutral".
Proof.
  unfold classify. destruct (Qltb (1 # 10) p); [auto |].
  destruct (Qltb p (- (1 # 10))); auto.
Qed.

Lemma analyze_with_textblob_well_formed (text : string) (result : dict) :
  analyze_with_textblob w text = Ok result -> well_formed result = true.
Proof.
  destruct (TextBlob_sentiment w text) as [[p s] | e] eqn:E.
  - rewrite (analyze_with_textblob_eq _ _ _ _ E). intros [= <-].
    destruct (classify_label p) as [-> | [-> | ->]]; reflexivity.
  - unfold analyze_with_textblob. rewrite E. discriminate.
Qed.

Lemma analyze_with_transformers_well_formed (self : SentimentAnalyzer)
    (text : string) (result : dict) :
  analyze_with_transformers w self text = Ok result -> well_formed result = true.
Proof.
  unfold analyze_with_transformers.
  destruct (transformer_model self) as [model |];
    [| apply analyze_with_textblob_well_formed].
  destruct (model (truncate text)) as [[label score] | [msg | msg]];
    cbn [bind try_except].
  - intros [= <-].
    destruct (label =? "POSITIVE"); [reflexivity |].
    destruct (label =? "NEGATIVE"); reflexivity.
  - apply analyze_with_textblob_well_formed.
  - discriminate.
Qed.

(** Whatever [analyze_sentiment] returns can be counted by [/stats]. *)
Lemma analyze_sentiment_well_formed (text requested : string) (result : dict) :
  analyze_sentiment w text requested = Ok result -> well_formed result = true.
Proof.
  unfold analyze_sentiment.
  destruct (__init__ w requested) as [self | e]; [cbn [bind] | discriminate].
  unfold analyze.
  destruct (negb (truthy text) || negb (truthy (strip text))).
  - intros [= <-]. reflexivity.
  - destruct (model_type self =? "transformers").
    + apply analyze_with_transformers_well_formed.
    + apply analyze_with_textblob_well_formed.
Qed.

End Shapes.

Lemma history_entry_fields (text : string) (result : dict) :
  history_entry text result !! "sentiment"
    = Some (default PNone (result !! "sentiment")) /\
  history_entry text result !! "confidence"
    = Some (default PNone (result !! "confidence")).
Proof. split; reflexivity. Qed.

Lemma history_entry_well_formed (text stamp : string) (result : dict) :
  well_formed result = true ->
  well_formed (history_entry text
                 (<["timestamp" := PStr stamp]> (<["text" := PStr text]> result)))
    = true.
Proof.
  intros H. unfold well_formed, get_is in *.
  destruct (history_entry_fields text
              (<["timestamp" := PStr stamp]> (<["text" := PStr text]> result)))
    as [-> ->].
  rewrite !lookup_insert_ne by discriminate.
  destruct (result !! "sentiment") as [[| | | l] |]; try discriminate H.
  destruct (result !! "confidence") as [v |]; [exact H |].
  rewrite andb_false_r in H. discriminate H.
Qed.

Lemma record_Forall {A} (P : A -> Prop) (entry : A) (h : list A) :
  Forall P h -> P entry -> Forall P (record entry h).
Proof.
  intros Hh He. unfold record.
  assert (Hall : Forall P (h ++ [entry])).
  { apply Forall_app. split; [exact Hh | constructor; [exact He | constructor]]. }
  destruct (capacity <? _)%nat; [| exact Hall].
  destruct (h ++ [entry])%list; [constructor |].
  cbn [tail]. inversion Hall; assumption.
Qed.

(** Every item of a reachable ledger can be counted. *)
Lemma reachable_well_formed (h : list dict) :
  reachable h -> Forall (fun item => well_formed item = true) h.
Proof.
  induction 1 as [| w get_json h _ IH]; [constructor |].
  destruct (analyze_endpoint_cases w get_json h)
    as [-> | (text & requested & result & Ha & ->)]; [exact IH |].
  cbn [snd]. apply record_Forall; [exact IH |].
  apply history_entry_well_formed.
  exact (analyze_sentiment_well_formed w _ _ _ Ha).
Qed.

(** The list [/analyze] keeps never holds more than 100 entries. *)
Lemma reachable_length (h : list dict) :
  reachable h -> (List.length h <= capacity)%nat.
Proof.
  induction 1 as [| w get_json h _ IH]; [cbn; cap |].
  destruct (analyze_endpoint_cases w get_json h)
    as [-> | (text & requested & result & _ & ->)]; [exact IH |].
  cbn [snd]. apply record_length_le, IH.
Qed.

Lemma count_sentiment_cons (label : string) (item : dict) (h : list dict) :
  count_sentiment label (item :: h) =
    ((if get_is item "sentiment" label then 1 else 0)
     + count_sentiment label h)%nat.
Proof.
  unfold count_sentiment. cbn [List.filter].
  destruct (get_is item "sentiment" label); reflexivity.
Qed.

(** The three counts split a ledger of well-formed items. *)
Lemma count_sentiment_total (h : list dict) :
  Forall (fun item => well_formed item = true) h ->
  (count_sentiment "Positive" h + count_sentiment "Negative" h
   + count_sentiment "Neutral" h)%nat = List.length h.
Proof.
  induction 1 as [| item h Hitem _ IH]; [reflexivity |].
  rewrite !count_sentiment_cons. cbn [List.length]. rewrite <- IH.
  unfold well_formed, get_is in *.
  destruct (item !! "sentiment") as [[| z | q | t] |]; try discriminate Hitem.
  destruct (t =? "Positive") eqn:EPositive;
    [apply String.eqb_eq in EPositive; subst t; cbn; lia |].
  destruct (t =? "Negative") eqn:ENegative;
    [apply String.eqb_eq in ENegative; subst t; cbn; lia |].
  destruct (t =? "Neutral") eqn:ENeutral;
    [apply String.eqb_eq in ENeutral; subst t; cbn; lia |].
  discriminate Hitem.
Qed.

Lemma sum_confidence_ok (h : list dict) : forall acc,
  Forall (fun item => well_formed item = true) h ->
  exists total, sum_confidence acc h = Ok total.
Proof.
  induction h as [| item h IH]; intros acc Hall; cbn [sum_confidence].
  - eauto.
  - inversion Hall as [| ? ? Hitem Hrest]; subst.
    unfold well_formed in Hitem. apply andb_true_iff in Hitem as [_ Hnum].
    destruct (item !! "confidence") as [[| z | q | s] |]; try discriminate Hnum;
      cbn [default from_option id add_number bind]; apply IH, Hrest.
Qed.

Section Percentages.

Local Open Scope Q_scope.


End Percentages.



(** * Further properties of the engine *)

Section EngineShapes.

Variable w : World.

Lemma analyze_with_textblob_shape (text : string) (d : dict) :
  analyze_with_textblob w text = Ok d -> labelled d /\ shape_lexicon d.
Proof.
  destruct (TextBlob_sentiment w text) as [[p s] | e] eqn:E.
  - rewrite (analyze_with_textblob_eq _ _ _ _ E). intros [= <-].
    unfold labelled, shape_lexicon.
    destruct (classify_label p) as [-> | [-> | ->]];
      (split; [split; [auto | eexists; split; reflexivity] |]);
      repeat split; try reflexivity; eexists; reflexivity.
  - unfold analyze_with_textblob. rewrite E. discriminate.
Qed.

Lemma analyze_with_transformers_shape (self : SentimentAnalyzer)
    (text : string) (d : dict) :
  analyze_with_transformers w self text = Ok d ->
  labelled d /\ (shape_lexicon d \/ shape_pretrained d).
Proof.
  unfold analyze_with_transformers.
  destruct (transformer_model self) as [model |].
  - destruct (model (truncate text)) as [[label score] | [msg | msg]];
      cbn [bind try_except].
    + intros [= <-]. unfold labelled, shape_pretrained.
      destruct (label =? "POSITIVE"); [| destruct (label =? "NEGATIVE")];
        (split; [split; [auto | eexists; split; reflexivity] | right]);
        repeat split; try reflexivity; eexists; reflexivity.
    + intros H. destruct (analyze_with_textblob_shape _ _ H). auto.
    + discriminate.
  - intros H. destruct (analyze_with_textblob_shape _ _ H). auto.
Qed.

End EngineShapes.

(** X1.  Whatever [analyze_sentiment] returns has one of the three labels and
    a numeric confidence, and exactly one of three shapes: the empty-text
    marker without backend fields (only on a whitespace-only text), a TextBlob
    answer with polarity and subjectivity and no score, or a DistilBERT answer
    with a score and neither polarity nor subjectivity (only when
    ["transformers"] was requested). *)
Theorem result_shape (w : World) (text requested : string) (d : dict) :
  analyze_sentiment w text requested = Ok d ->
  labelled d /\
  ((shape_empty d /\ whitespace_only text = true)
   \/ (shape_lexicon d /\ whitespace_only text = false)
   \/ (shape_pretrained d /\ whitespace_only text = false
       /\ requested = "transformers")).
Proof.
  unfold analyze_sentiment.
  destruct (__init__ w requested) as [self | e] eqn:Ei; [cbn [bind] | discriminate].
  destruct (whitespace_only text) eqn:Ews.
  - rewrite (analyze_guard w self text Ews). intros [= <-].
    split; [| left; split; [repeat split |]; reflexivity].
    split; [auto | eexists; split; reflexivity].
  - rewrite (analyze_dispatch w self text Ews).
    destruct (String.eqb_spec (model_type self) "transformers") as [Hty | Hty].
    + intros H. destruct (analyze_with_transformers_shape w _ _ _ H) as [Hl [Hs | Hs]].
      * split; [exact Hl | right; left; auto].
      * assert (Hreq : requested = "transformers").
        { unfold __init__ in Ei.
          destruct (String.eqb_spec requested "transformers") as [-> | Hne];
            [reflexivity |].
          injection Ei as <-. cbn in Hty. contradiction. }
        split; [exact Hl | right; right; auto].
    + intros H. destruct (analyze_with_textblob_shape w _ _ H) as [Hl Hs].
      split; [exact Hl | right; left; auto].
Qed.

Lemma result_shape_witness :
  exists d,
    analyze_sentiment (pipeline_world positive_model 0 0) "Decent." "transformers"
      = Ok d /\ labelled d.
Proof.
  eexists. split; [reflexivity |].
  exact (proj1 (result_shape (pipeline_world positive_model 0 0) "Decent."
                  "transformers" _ eq_refl)).
Defined.



(** X3.  Any requested backend other than the exact string ["transformers"]
    behaves as ["textblob"]: the library flag and the pipeline are not looked
    at, so two worlds whose TextBlob agrees on the text give the same
    outcome. *)
Theorem other_backends_are_textblob (w w' : World) (text requested : string) :
  requested <> "transformers" ->
  TextBlob_sentiment w text = TextBlob_sentiment w' text ->
  analyze_sentiment w text requested = analyze_sentiment w' text "textblob".
Proof.
  intros Hne HTB. apply String.eqb_neq in Hne.
  unfold analyze_sentiment, __init__. rewrite Hne. cbn [bind String.eqb Ascii.eqb Bool.eqb].
  unfold analyze. cbn [model_type]. rewrite Hne. cbn [String.eqb Ascii.eqb Bool.eqb].
  destruct (negb (truthy text) || negb (truthy (strip text))); [reflexivity |].
  unfold analyze_with_textblob. rewrite HTB. reflexivity.
Qed.

Lemma other_backends_are_textblob_witness :
  field "model"
    (analyze_sentiment (pipeline_world positive_model (3 # 4) (9 # 10))
       "This is amazing!" "Transformers")
    = Some (PStr "TextBlob").
Proof.
  rewrite (other_backends_are_textblob
             (pipeline_world positive_model (3 # 4) (9 # 10))
             (lexicon_world (3 # 4) (9 # 10)) "This is amazing!" "Transformers").
  - reflexivity.
  - discriminate.
  - reflexivity.
Defined.



(** X5.  Errors that do leave [analyze] on the transformers path: when the
    pipeline call fails with an [Exception] and TextBlob then fails too, the
    caller gets TextBlob's error, not the pipeline's; a pipeline failure that
    is not an [Exception] is not caught at all. *)
Theorem escaping_errors (w : World) (self : SentimentAnalyzer)
    (model : string -> exc (string * Q)) (text : string) :
  whitespace_only text = false ->
  model_type self = "transformers" ->
  transformer_model self = Some model ->
  (forall msg e,
      model (truncate text) = Raise (Exception msg) ->
      TextBlob_sentiment w (truncate text) = Raise e ->
      analyze w self text = Raise e) /\
  (forall msg,
      model (truncate text) = Raise (BaseException msg) ->
      analyze w self text = Raise (BaseException msg)).
Proof.
  intros Hne Hty Hm.
  rewrite (analyze_dispatch _ _ _ Hne), Hty. cbn [String.eqb Ascii.eqb Bool.eqb].
  unfold analyze_with_transformers. rewrite Hm. split.
  - intros msg e -> HTB. cbn [bind try_except].
    unfold analyze_with_textblob. rewrite HTB. reflexivity.
  - intros msg ->. reflexivity.
Qed.

Lemma escaping_errors_witness :
  analyze
    {| TRANSFORMERS_AVAILABLE := true;
       pipeline := Ok failing_model;
       TextBlob_sentiment := fun _ => Raise (Exception "lexicon not found");
       now := "2025-10-06T12:00:00" |}
    {| model_type := "transformers"; transformer_model := Some failing_model |}
    "Decent."
  = Raise (Exception "lexicon not found").
Proof.
  destruct (escaping_errors
              {| TRANSFORMERS_AVAILABLE := true;
                 pipeline := Ok failing_model;
                 TextBlob_sentiment := fun _ => Raise (Exception "lexicon not found");
                 now := "2025-10-06T12:00:00" |}
              {| model_type := "transformers";
                 transformer_model := Some failing_model |}
              failing_model "Decent." eq_refl eq_refl eq_refl) as [H _].
  exact (H "CUDA out of memory" (Exception "lexicon not found") eq_refl eq_refl).
Defined.

(** ** Words *)

Section Words.

Lemma flush_proper (cur : list ascii) :
  cur <> [] -> Forall (fun c => isspace c = false) cur ->
  proper_word (string_of_list_ascii (rev cur)).
Proof.
  intros Hne Hall. split.
  - intros H. apply (f_equal list_ascii_of_string) in H.
    rewrite list_ascii_of_string_of_list_ascii in H. cbn in H.
    apply (f_equal (@rev ascii)) in H. rewrite rev_involutive in H.
    cbn in H. contradiction.
  - rewrite list_ascii_of_string_of_list_ascii. apply Forall_rev, Hall.
Qed.

Lemma append_empty (s : string) : s ++ "" = s.
Proof.
  induction s as [| c s IH]; [reflexivity |].
  change (String c s ++ "") with (String c (s ++ "")). rewrite IH. reflexivity.
Qed.

Lemma split_aux_cons (cur : list ascii) (c : ascii) (s : string) :
  split_aux cur (String c s) =
    if isspace c then
      match cur with
      | [] => split_aux [] s
      | _ => string_of_list_ascii (rev cur) :: split_aux [] s
      end
    else split_aux (c :: cur) s.
Proof. destruct cur; reflexivity. Qed.

Lemma split_aux_nil (cur : list ascii) :
  split_aux cur "" =
    match cur with
    | [] => []
    | _ => [string_of_list_ascii (rev cur)]
    end.
Proof. destruct cur; reflexivity. Qed.

(** [split] yields proper words only. *)
Lemma split_aux_proper (s : string) : forall cur,
  Forall (fun c => isspace c = false) cur ->
  Forall proper_word (split_aux cur s).
Proof.
  induction s as [| c s IH]; intros cur Hcur;
    [rewrite split_aux_nil | rewrite split_aux_cons].
  - destruct cur as [| a cur]; [constructor |].
    constructor; [apply flush_proper; [discriminate | exact Hcur] | constructor].
  - destruct (isspace c) eqn:Ec.
    + destruct cur as [| a cur]; [apply IH; constructor |].
      constructor; [apply flush_proper; [discriminate | exact Hcur] |].
      apply IH. constructor.
    + apply IH. constructor; assumption.
Qed.

(** Reading a space-free stretch only grows the current run. *)
Lemma split_aux_word (word : string) : forall cur rest,
  Forall (fun c => isspace c = false) (list_ascii_of_string word) ->
  split_aux cur (word ++ rest) =
    split_aux (rev (list_ascii_of_string word) ++ cur)%list rest.
Proof.
  induction word as [| c word IH]; intros cur rest Hall; [reflexivity |].
  cbn [list_ascii_of_string] in Hall. inversion Hall as [| ? ? Hc Hrest]; subst.
  change (String c word ++ rest) with (String c (word ++ rest)).
  rewrite split_aux_cons, Hc, IH by exact Hrest.
  cbn [list_ascii_of_string rev]. rewrite <- app_assoc. reflexivity.
Qed.

(** Joining proper words with single spaces and splitting again gives the
    words back. *)
Lemma split_join (words : list string) :
  Forall proper_word words -> split (join " " words) = words.
Proof.
  induction 1 as [| word words [Hne Hword] Hrest IH]; [reflexivity |].
  assert (Hrev : string_of_list_ascii
                   (rev (rev (list_ascii_of_string word) ++ [])%list) = word).
  { rewrite app_nil_r, rev_involutive.
    apply string_of_list_ascii_of_string. }
  assert (Hcur : (rev (list_ascii_of_string word) ++ [])%list <> []).
  { rewrite app_nil_r. intros H. apply (f_equal (@rev ascii)) in H.
    rewrite rev_involutive in H. cbn in H.
    apply Hne. rewrite <- (string_of_list_ascii_of_string word), H.
    reflexivity. }
  unfold split in *. destruct words as [| next words].
  - cbn [join]. rewrite <- (append_empty word) at 1.
    rewrite split_aux_word, split_aux_nil by exact Hword.
    destruct (rev (list_ascii_of_string word) ++ [])%list eqn:E;
      [contradiction |].
    rewrite Hrev. reflexivity.
  - change (join " " (word :: next :: words))
      with (word ++ " " ++ join " " (next :: words)).
    rewrite split_aux_word by exact Hword.
    change (" " ++ join " " (next :: words))
      with (String " " (join " " (next :: words))).
    rewrite split_aux_cons. change (isspace " ") with true. cbv iota.
    destruct (rev (list_ascii_of_string word) ++ [])%list eqn:E;
      [contradiction |].
    rewrite Hrev, IH. reflexivity.
Qed.

End Words.

(** X6.  The text handed to the pipeline consists of the first 512 words of
    the input, in order: it never has more than 512 words, a text of at most
    512 words goes through unchanged, and truncating twice changes nothing
    more. *)
Theorem truncate_words (text : string) :
  split (truncate text) = firstn 512 (split text) /\
  (List.length (split (truncate text)) <= 512)%nat /\
  ((List.length (split text) <= 512)%nat -> truncate text = text) /\
  truncate (truncate text) = truncate text.
Proof.
  assert (Hsplit : split (truncate text) = firstn 512 (split text)).
  { unfold truncate.
    destruct (Nat.ltb_spec 512 (List.length (split text))) as [Hlong | Hshort].
    - apply split_join. apply Forall_take.
      apply (split_aux_proper text []). constructor.
    - symmetry. apply firstn_all2. exact Hshort. }
  assert (Hlen : (List.length (split (truncate text)) <= 512)%nat).
  { rewrite Hsplit. apply firstn_le_length. }
  split; [exact Hsplit |]. split; [exact Hlen |].
  split; [apply truncate_short |]. apply truncate_short, Hlen.
Qed.

(** * Further properties of the endpoints *)

Lemma rstrip_keeps_head (c : ascii) (r : string) :
  isspace c = false -> exists r', rstrip (String c r) = String c r'.
Proof.
  intros Hc. cbn [rstrip]. destruct (rstrip r); [rewrite Hc |]; eauto.
Qed.

(** Stripping a text that is not whitespace-only leaves a text that starts
    with a character that is no space. *)
Lemma strip_head (s : string) :
  whitespace_only s = false ->
  exists c r, strip s = String c r /\ isspace c = false.
Proof.
  intros H. destruct (lstrip_head _ H) as (c & r & Hl & Hc).
  unfold strip. rewrite Hl. destruct (rstrip_keeps_head c r Hc) as [r' ->].
  eauto.
Qed.

Lemma strip_not_blank (s : string) :
  whitespace_only s = false -> whitespace_only (strip s) = false.
Proof.
  intros H. destruct (strip_head s H) as (c & r & -> & Hc).
  unfold whitespace_only. cbn. rewrite Hc. reflexivity.
Qed.

Lemma truthy_strip (s : string) : truthy (strip s) = negb (whitespace_only s).
Proof.
  destruct (whitespace_only s) eqn:E.
  - unfold strip. rewrite (lstrip_whitespace_only _ E). reflexivity.
  - destruct (strip_head s E) as (c & r & -> & _). reflexivity.
Qed.

Lemma prefix_length (n : nat) : forall s, (String.length (prefix n s) <= n)%nat.
Proof.
  unfold prefix. induction n as [| n IH]; intros [| c s]; cbn; try lia.
  specialize (IH s). lia.
Qed.

Lemma well_formed_labelled (d : dict) : well_formed d = true -> labelled d.
Proof.
  unfold well_formed, labelled, get_is. intros H.
  apply andb_true_iff in H as [Hs Hc]. split.
  - destruct (d !! "sentiment") as [[| z | q | t] |]; try discriminate Hs.
    apply orb_true_iff in Hs as [Hs | Hs];
      [apply orb_true_iff in Hs as [Hs | Hs] |];
      apply String.eqb_eq in Hs; subst t; auto.
  - destruct (d !! "confidence") as [v |]; [eauto | discriminate Hc].
Qed.

Section AnalyzeOk.

Variable w : World.

(** A text that is not whitespace-only gets a backend answer. *)
Lemma analyze_sentiment_backend (text requested : string) (d : dict) :
  whitespace_only text = false ->
  analyze_sentiment w text requested = Ok d ->
  labelled d /\ (shape_lexicon d \/ shape_pretrained d).
Proof.
  intros Hne. unfold analyze_sentiment.
  destruct (__init__ w requested) as [self | e]; [cbn [bind] | discriminate].
  rewrite (analyze_dispatch w self text Hne).
  destruct (model_type self =? "transformers").
  - apply analyze_with_transformers_shape.
  - intros H. destruct (analyze_with_textblob_shape w _ _ H). auto.
Qed.

(** What stands behind a 200 of the [try] block. *)
Lemma analyze_try_ok (get_json : exc json) (h : list dict) (body : dict) :
  fst (analyze_try w get_json h) = Ok (body, 200%Z) ->
  exists data raw requested result,
    get_json = Ok data /\
    Json.get data "text" (JStr "") = Ok (JStr raw) /\
    whitespace_only raw = false /\
    analyze_sentiment w (strip raw) requested = Ok result /\
    body = <["timestamp" := PStr (now w)]> (<["text" := PStr (strip raw)]> result) /\
    snd (analyze_try w get_json h) = record (history_entry (strip raw) body) h.
Proof.
  unfold analyze_try.
  destruct get_json as [data | e]; [| discriminate].
  destruct (Json.truthy data); cbn [negb]; [| discriminate].
  destruct (Json.get data "text" (JStr "")) as [v | e] eqn:Eg;
    cbn [bind]; [| discriminate].
  destruct v as [| b | z | q | raw | items | members];
    cbn [Json.str_method Json.AttributeError bind]; try discriminate.
  destruct (Json.get data "model" (JStr "textblob")) as [v | e];
    cbn [bind]; [| discriminate].
  destruct v as [| b | z | q | m | items | members];
    cbn [Json.str_method Json.AttributeError bind]; try discriminate.
  rewrite truthy_strip, negb_involutive.
  destruct (whitespace_only raw) eqn:Ews; [discriminate |].
  destruct (analyze_sentiment w (strip raw) _) as [result | e] eqn:Ea;
    [| discriminate].
  cbn [fst snd]. intros [= <-].
  exists data, raw. eexists. exists result.
  split; [reflexivity |]. split; [exact Eg |]. split; [exact Ews |].
  split; [exact Ea |]. split; reflexivity.
Qed.

Lemma analyze_endpoint_ok (get_json : exc json) (h : list dict) (body : dict) :
  fst (analyze_endpoint w get_json h) = Ok (body, 200%Z) ->
  fst (analyze_try w get_json h) = Ok (body, 200%Z) /\
  snd (analyze_endpoint w get_json h) = snd (analyze_try w get_json h).
Proof.
  unfold analyze_endpoint.
  destruct (analyze_try w get_json h) as [[r | [msg | msg]] h']; cbn [fst snd];
    try discriminate; auto.
Qed.

End AnalyzeOk.

(** X7.  Every 200 answer of [/analyze] echoes the stripped text of the
    request, which is not whitespace-only, carries the timestamp, one of the
    three labels with a numeric confidence and the name of the backend that
    answered, and never the empty-text marker; the entry recorded for it is
    the one built from this answer. *)
Theorem ok_answer (w : World) (get_json : exc json) (h : list dict)
    (body : dict) :
  fst (analyze_endpoint w get_json h) = Ok (body, 200%Z) ->
  exists data raw,
    get_json = Ok data /\
    Json.get data "text" (JStr "") = Ok (JStr raw) /\
    whitespace_only (strip raw) = false /\
    body !! "text" = Some (PStr (strip raw)) /\
    body !! "timestamp" = Some (PStr (now w)) /\
    labelled body /\
    body !! "error" = None /\
    (body !! "model" = Some (PStr "TextBlob")
     \/ body !! "model" = Some (PStr "DistilBERT")) /\
    snd (analyze_endpoint w get_json h)
      = record (history_entry (strip raw) body) h.
Proof.
  intros Hok. destruct (analyze_endpoint_ok w _ _ _ Hok) as [Htry ->].
  destruct (analyze_try_ok w _ _ _ Htry)
    as (data & raw & requested & result & -> & Hget & Hne & Ha & -> & ->).
  pose proof (strip_not_blank raw Hne) as Hsn.
  destruct (analyze_sentiment_backend w _ _ _ Hsn Ha) as [[Hlab [v [Hv Hnum]]] Hshape].
  exists data, raw.
  split; [reflexivity |]. split; [exact Hget |]. split; [exact Hsn |].
  split; [rewrite lookup_insert_ne by discriminate; apply lookup_insert_eq |].
  split; [apply lookup_insert_eq |].
  split; [split; [| exists v; split; [| exact Hnum]];
          rewrite !lookup_insert_ne by discriminate; assumption |].
  rewrite !lookup_insert_ne by discriminate.
  split; [| split; [| reflexivity]].
  - destruct Hshape as [Hs | Hs]; apply Hs.
  - destruct Hshape as [Hs | Hs]; [left | right]; apply Hs.
Qed.

Lemma ok_answer_witness :
  exists body,
    fst (analyze_endpoint (lexicon_world (3 # 4) (9 # 10))
           (post "  This is amazing!  ") []) = Ok (body, 200%Z) /\
    body !! "text" = Some (PStr "This is amazing!") /\
    body !! "error" = None.
Proof.
  eexists. split; [reflexivity |].
  destruct (ok_answer (lexicon_world (3 # 4) (9 # 10))
              (post "  This is amazing!  ") [] _ eq_refl)
    as (data & raw & Hd & Hget & _ & Ht & _ & _ & He & _).
  injection Hd as <-. injection Hget as <-.
  split; [exact Ht | exact He].
Defined.

(** The entry behind a 200 answer. *)
Lemma ok_entry_facts (w : World) (get_json : exc json) (h : list dict)
    (body : dict) :
  fst (analyze_endpoint w get_json h) = Ok (body, 200%Z) ->
  exists entry,
    snd (analyze_endpoint w get_json h) = record entry h /\ stored_entry entry.
Proof.
  intros Hok. destruct (analyze_endpoint_ok w _ _ _ Hok) as [Htry ->].
  destruct (analyze_try_ok w _ _ _ Htry)
    as (data & raw & requested & result & -> & Hget & Hne & Ha & -> & ->).
  eexists. split; [reflexivity |].
  destruct (strip_head raw Hne) as (c & r & Hs & _).
  pose proof (analyze_sentiment_well_formed w _ _ _ Ha) as Hwf.
  pose proof (well_formed_labelled _
                (history_entry_well_formed (strip raw) (now w) result Hwf))
    as Hlab.
  split; [| split; [exact Hlab |]].
  - exists (prefix 100 (strip raw)). split; [reflexivity |].
    split; [apply prefix_length |]. rewrite Hs. discriminate.
  - exists (now w).
    transitivity (Some (default PNone
                          (<["timestamp" := PStr (now w)]>
                             (<["text" := PStr (strip raw)]> result)
                           !! "timestamp"))); [reflexivity |].
    rewrite lookup_insert_eq. reflexivity.
Qed.

(** X8.  Along any run of requests the list [/analyze] keeps holds at most
    100 entries, each with a non-empty excerpt of at most 100 characters, one
    of the three labels, a numeric confidence and a timestamp. *)
Theorem reachable_entries (h : list dict) :
  reachable h ->
  (List.length h <= capacity)%nat /\ Forall stored_entry h.
Proof.
  induction 1 as [| w get_json h _ [IHlen IHall]]; [split; [cbn; cap | constructor] |].
  destruct (analyze_endpoint_cases w get_json h)
    as [-> | (text & requested & result & _ & Heq)]; [auto |].
  assert (Hok : fst (analyze_endpoint w get_json h)
                = Ok (<["timestamp" := PStr (now w)]>
                        (<["text" := PStr text]> result), 200%Z))
    by (rewrite Heq; reflexivity).
  destruct (ok_entry_facts w get_json h _ Hok) as (excerpt & Hsnd & Hentry).
  rewrite Hsnd. split.
  - apply record_length_le, IHlen.
  - apply record_Forall; assumption.
Qed.

Lemma reachable_entries_witness :
  (List.length sample_ledger <= capacity)%nat /\ Forall stored_entry sample_ledger.
Proof.
  apply reachable_entries. unfold sample_ledger. cbv zeta.
  repeat apply reachable_analyze. apply reachable_init.
Defined.

(** X9.  [/analyze] answers 400 without touching the list when the JSON body
    is falsy (null, false, 0, an empty string, list or object), and when the
    body is an object whose [text] is missing or a whitespace-only string
    while [model] is missing or a string; TextBlob is not consulted. *)
Theorem client_errors (w : World) (h : list dict) :
  (forall data,
      Json.truthy data = false ->
      analyze_endpoint w (Ok data) h =
        (Ok (bad_request "No JSON data provided"
               "Please send JSON data with 'text' field"), h)) /\
  (forall members raw m,
      Json.truthy (JObj members) = true ->
      Json.get (JObj members) "text" (JStr "") = Ok (JStr raw) ->
      Json.get (JObj members) "model" (JStr "textblob") = Ok (JStr m) ->
      whitespace_only raw = true ->
      analyze_endpoint w (Ok (JObj members)) h =
        (Ok (bad_request "Empty text provided"
               "Please provide text to analyze"), h)).
Proof.
  split.
  - intros data Hd. unfold analyze_endpoint, analyze_try. rewrite Hd.
    reflexivity.
  - intros members raw m Ht Hraw Hm Hws.
    unfold analyze_endpoint, analyze_try. rewrite Ht, Hraw, Hm.
    cbn [negb bind Json.str_method]. rewrite truthy_strip, Hws. reflexivity.
Qed.

Lemma client_errors_witness :
  analyze_endpoint broken_world (Ok (JObj [("model", JStr "textblob")])) []
  = (Ok (bad_request "Empty text provided" "Please provide text to analyze"), []).
Proof.
  destruct (client_errors broken_world []) as [_ H].
  exact (H [("model", JStr "textblob")] "" "textblob"
           eq_refl eq_refl eq_refl eq_refl).
Defined.

(** X10.  [/analyze] answers 500 with the error's text, and leaves the list
    alone, when [get_json] raises, when the truthy JSON body is no object,
    when [text] is no string, and when [model] is no string; the last also
    when [text] is blank, since [model] is lowered before [text] is
    checked. *)
Theorem type_errors (w : World) (h : list dict) :
  (forall msg,
      analyze_endpoint w (Raise (Exception msg)) h = (Ok (server_error msg), h)) /\
  (forall data,
      Json.truthy data = true ->
      (forall members, data <> JObj members) ->
      analyze_endpoint w (Ok data) h =
        (Ok (server_error ("'" ++ Json.type_name data
                           ++ "' object has no attribute 'get'")), h)) /\
  (forall members v,
      Json.truthy (JObj members) = true ->
      Json.get (JObj members) "text" (JStr "") = Ok v ->
      (forall s, v <> JStr s) ->
      analyze_endpoint w (Ok (JObj members)) h =
        (Ok (server_error ("'" ++ Json.type_name v
                           ++ "' object has no attribute 'strip'")), h)) /\
  (forall members raw v,
      Json.truthy (JObj members) = true ->
      Json.get (JObj members) "text" (JStr "") = Ok (JStr raw) ->
      Json.get (JObj members) "model" (JStr "textblob") = Ok v ->
      (forall s, v <> JStr s) ->
      analyze_endpoint w (Ok (JObj members)) h =
        (Ok (server_error ("'" ++ Json.type_name v
                           ++ "' object has no attribute 'lower'")), h)).
Proof.
  split; [reflexivity |]. split; [| split].
  - intros data Ht Hno. unfold analyze_endpoint, analyze_try. rewrite Ht.
    destruct data; try reflexivity. exfalso. eapply Hno. reflexivity.
  - intros members v Ht Hget Hno. unfold analyze_endpoint, analyze_try.
    rewrite Ht, Hget. destruct v; try reflexivity.
    exfalso. eapply Hno. reflexivity.
  - intros members raw v Ht Hraw Hget Hno. unfold analyze_endpoint, analyze_try.
    rewrite Ht, Hraw, Hget. destruct v; try reflexivity.
    exfalso. eapply Hno. reflexivity.
Qed.

Lemma type_errors_witness :
  analyze_endpoint broken_world (Ok (JObj [("text", JStr ""); ("model", JInt 3)])) []
  = (Ok (server_error "'int' object has no attribute 'lower'"), []).
Proof.
  destruct (type_errors broken_world []) as (_ & _ & _ & H).
  apply (H [("text", JStr ""); ("model", JInt 3)] "" (JInt 3) eq_refl eq_refl eq_refl).
  discriminate.
Defined.

(** X11.  [/analyze] reads [model] without regard to case and takes every
    name other than a spelling of "transformers" as "textblob": such a request
    is answered, and recorded, exactly like the same request without the
    field. *)
Theorem model_name_normalised (w : World) (text m : string) (h : list dict) :
  (lower m <> "transformers" ->
   analyze_endpoint w (Ok (JObj [("text", JStr text); ("model", JStr m)])) h
   = analyze_endpoint w (Ok (JObj [("text", JStr text)])) h) /\
  (lower m = "transformers" ->
   analyze_endpoint w (Ok (JObj [("text", JStr text); ("model", JStr m)])) h
   = analyze_endpoint w
       (Ok (JObj [("text", JStr text); ("model", JStr "transformers")])) h).
Proof.
  unfold analyze_endpoint, analyze_try.
  cbn [Json.truthy negb Json.get Json.lookup String.eqb Ascii.eqb Bool.eqb
       from_option id bind Json.str_method].
  split.
  - intros Hne. apply String.eqb_neq in Hne. rewrite Hne, orb_false_r.
    change (lower "textblob") with "textblob".
    cbn [String.eqb Ascii.eqb Bool.eqb orb].
    destruct (String.eqb_spec (lower m) "textblob") as [-> | _]; reflexivity.
  - intros ->. reflexivity.
Qed.

Lemma model_name_normalised_witness :
  analyze_endpoint (pipeline_world positive_model (3 # 4) (9 # 10))
    (Ok (JObj [("text", JStr "Decent."); ("model", JStr " transformers")])) []
  = analyze_endpoint (pipeline_world positive_model (3 # 4) (9 # 10))
      (post "Decent.") [].
Proof.
  destruct (model_name_normalised (pipeline_world positive_model (3 # 4) (9 # 10))
              "Decent." " transformers" []) as [H _].
  apply H. discriminate.
Defined.

(** X12.  A limit of zero or below does not shorten the answer of [/history]
    from the recent end: [limit=0] returns the whole list, and [limit=-k]
    returns the list without its [k] oldest entries. *)
Theorem history_nonpositive (A : Type) (limit : Z) (h : list A) :
  (limit <= 0)%Z ->
  history (Some limit) h = (List.length h, skipn (Z.to_nat (- limit)) h).
Proof.
  intros Hl. unfold history, slice_from.
  change (default 50%Z (Some limit)) with limit.
  rewrite Z.min_l by lia. f_equal.
  destruct (Z.ltb_spec (- limit) 0); [lia |].
  destruct (Z.le_gt_cases (- limit) (Z.of_nat (List.length h))) as [Hin | Hout].
  - rewrite Z.min_l by lia. reflexivity.
  - rewrite Z.min_r by lia. rewrite Nat2Z.id.
    rewrite skipn_all. symmetry. apply skipn_all2. lia.
Qed.

Lemma history_nonpositive_witness :
  history (Some (-1)%Z) ["first"; "second"; "third"]
  = (3%nat, ["second"; "third"]).
Proof.
  rewrite (history_nonpositive string (-1) ["first"; "second"; "third"]).
  - reflexivity.
  - discriminate.
Defined.


(** X13.  On every list the program can reach [/stats] answers 200: [total]
    is the length of the list and the three counts add up to it; for the
    empty list the answer has no percentage and no average, so nothing is
    divided by zero. *)
Theorem stats_reachable (h : list dict) :
  reachable h ->
  exists body p n u,
    stats h = Ok (body, 200%Z) /\
    body !! "total" = Some (PInt (Z.of_nat (List.length h))) /\
    body !! "positive" = Some (PInt (Z.of_nat p)) /\
    body !! "negative" = Some (PInt (Z.of_nat n)) /\
    body !! "neutral" = Some (PInt (Z.of_nat u)) /\
    (p + n + u)%nat = List.length h /\
    (h = [] -> body !! "average_confidence" = None
               /\ body !! "positive_percentage" = None).
Proof.
  intros Hreach. pose proof (reachable_well_formed h Hreach) as Hwf.
  pose proof (count_sentiment_total h Hwf) as Hsum.
  destruct (sum_confidence_ok h 0%Q Hwf) as [total Htotal].
  destruct h as [| item h].
  - exists ({[ "total" := PInt 0; "positive" := PInt 0;
              "negative" := PInt 0; "neutral" := PInt 0 ]} : dict),
      0%nat, 0%nat, 0%nat.
    repeat split; reflexivity.
  - unfold stats. rewrite Htotal. cbn [bind try_except].
    eexists. exists (count_sentiment "Positive" (item :: h)),
      (count_sentiment "Negative" (item :: h)),
      (count_sentiment "Neutral" (item :: h)).
    split; [reflexivity |]. split; [reflexivity |]. split; [reflexivity |].
    split; [reflexivity |]. split; [reflexivity |]. split; [exact Hsum |].
    discriminate.
Qed.

Lemma stats_reachable_witness :
  exists body,
    stats sample_ledger = Ok (body, 200%Z) /\ body !! "total" = Some (PInt 3).
Proof.
  assert (Hreach : reachable sample_ledger).
  { unfold sample_ledger. cbv zeta. repeat apply reachable_analyze.
    apply reachable_init. }
  destruct (stats_reachable sample_ledger Hreach)
    as (body & p & n & u & Hs & Ht & _).
  exists body. split; [exact Hs | exact Ht].
Defined.



(** * The dashboard *)

(** X15.  [analyze_text_api] never lets an [Exception] out, and a result
    without the key [error] is always the JSON body of a reply with status
    200, unchanged: every other reply and every failed call is marked with
    [error]. *)
Theorem api_result_origin (outcome : http_outcome) :
  (forall msg, analyze_text_api outcome <> Raise (Exception msg)) /\
  (forall d,
      analyze_text_api outcome = Ok d -> d !! "error" = None ->
      outcome = Response 200 (Ok d)) /\
  (forall body, outcome = Response 200 (Ok body) ->
                analyze_text_api outcome = Ok body).
Proof.
  split; [| split].
  - intros msg. destruct outcome as [status [body | [m | m]] | | [m | m]];
      cbn [analyze_text_api]; try discriminate;
      destruct (status =? 200)%Z; discriminate.
  - intros d Hd He.
    destruct outcome as [status [body | [m | m]] | | [m | m]];
      cbn [analyze_text_api] in Hd;
      try (injection Hd as <-; discriminate He);
      try discriminate Hd.
    + destruct (Z.eqb_spec status 200) as [-> | _]; cbn [bind try_except] in Hd.
      * injection Hd as <-. reflexivity.
      * injection Hd as <-. discriminate He.
    + destruct (status =? 200)%Z; cbn [bind try_except] in Hd;
        injection Hd as <-; discriminate He.
    + destruct (status =? 200)%Z; discriminate Hd.
  - intros body ->. reflexivity.
Qed.

Lemma api_result_origin_witness :
  analyze_text_api (Response 200 (Ok (bare_reply "Positive")))
  = Ok (bare_reply "Positive").
Proof.
  destruct (api_result_origin
              (Response 200 (Ok (bare_reply "Positive"))))
    as (_ & _ & H).
  apply H. reflexivity.
Defined.

(** What a click does with a result that carries no [error]. *)
Lemma on_analyze_stored (feedback_text timestamp : string) (body : dict)
    (st : session) :
  truthy feedback_text = true ->
  body !! "error" = None ->
  on_analyze feedback_text (Response 200 (Ok body)) timestamp st =
    let result := <["timestamp" := PStr timestamp]> body in
    let results := (analysis_results st ++ [result])%list in
    match default (PStr "Neutral") (body !! "sentiment") with
    | PStr key =>
        match sentiment_counts st !! key with
        | Some count =>
            (Completed,
             {| analysis_results := results;
                sentiment_counts := <[key := (count + 1)%Z]> (sentiment_counts st) |})
        | None =>
            (KeyError (PStr key),
             {| analysis_results := results;
                sentiment_counts := sentiment_counts st |})
        end
    | other =>
        (KeyError other,
         {| analysis_results := results; sentiment_counts := sentiment_counts st |})
    end.
Proof.
  intros Ht He. unfold on_analyze. rewrite Ht.
  cbn [negb analyze_text_api Z.eqb Pos.eqb try_except]. rewrite He.
  cbv zeta. rewrite lookup_insert_ne by discriminate.
  cbn [analysis_results sentiment_counts].
  destruct (default (PStr "Neutral") (body !! "sentiment")) as [| z | q | key];
    try reflexivity.
Qed.

(** One more result under one of the three labels keeps the counters in
    step. *)
Lemma session_ok_step (st : session) (result : dict) (key : string) (count : Z) :
  session_ok st ->
  key = "Positive" \/ key = "Negative" \/ key = "Neutral" ->
  sentiment_counts st !! key = Some count ->
  session_ok {| analysis_results := (analysis_results st ++ [result])%list;
                sentiment_counts := <[key := (count + 1)%Z]> (sentiment_counts st) |}.
Proof.
  intros (p & n & u & Hp & Hn & Hu & Hsum) Hkey Hcount.
  unfold session_ok. cbn [analysis_results sentiment_counts].
  rewrite length_app, Nat2Z.inj_add. cbn [List.length].
  destruct Hkey as [-> | [-> | ->]].
  - exists (count + 1)%Z, n, u. rewrite lookup_insert_eq.
    rewrite !lookup_insert_ne by discriminate.
    repeat split; try assumption. rewrite Hp in Hcount. injection Hcount as <-. lia.
  - exists p, (count + 1)%Z, u. rewrite lookup_insert_eq.
    rewrite !lookup_insert_ne by discriminate.
    repeat split; try assumption. rewrite Hn in Hcount. injection Hcount as <-. lia.
  - exists p, n, (count + 1)%Z. rewrite lookup_insert_eq.
    rewrite !lookup_insert_ne by discriminate.
    repeat split; try assumption. rewrite Hu in Hcount. injection Hcount as <-. lia.
Qed.

(** X16.  A click that gets a 200 reply whose body has no [error] key and
    one of the three labels (or no [sentiment], counted as Neutral) stores the
    body with the dashboard's own timestamp at the end of the results and
    raises one counter, so the counters keep adding up to the number of
    stored results. *)
Theorem click_counts (feedback_text timestamp : string) (body : dict)
    (st : session) :
  session_ok st ->
  truthy feedback_text = true ->
  body !! "error" = None ->
  (body !! "sentiment" = None
   \/ body !! "sentiment" = Some (PStr "Positive")
   \/ body !! "sentiment" = Some (PStr "Negative")
   \/ body !! "sentiment" = Some (PStr "Neutral")) ->
  exists st',
    on_analyze feedback_text (Response 200 (Ok body)) timestamp st
      = (Completed, st') /\
    analysis_results st' =
      (analysis_results st ++ [<["timestamp" := PStr timestamp]> body])%list /\
    session_ok st'.
Proof.
  intros Hok Ht He Hs.
  rewrite (on_analyze_stored _ _ _ _ Ht He). cbv zeta.
  assert (Hkey : exists key,
             default (PStr "Neutral") (body !! "sentiment") = PStr key /\
             (key = "Positive" \/ key = "Negative" \/ key = "Neutral")).
  { destruct Hs as [-> | [-> | [-> | ->]]]; eexists; split;
      try reflexivity; auto. }
  destruct Hkey as (key & -> & Hkey).
  assert (Hcount : exists count, sentiment_counts st !! key = Some count).
  { destruct Hok as (p & n & u & Hp & Hn & Hu & _).
    destruct Hkey as [-> | [-> | ->]]; eauto. }
  destruct Hcount as [count Hcount]. rewrite Hcount.
  eexists. split; [reflexivity |]. split; [reflexivity |].
  apply session_ok_step; assumption.
Qed.

Lemma click_counts_witness :
  exists st',
    on_analyze "Superb." (Response 200 (Ok (bare_reply "Positive")))
      "2025-10-06T12:00:01" new_session = (Completed, st') /\
    sentiment_counts st' !! "Positive" = Some 1%Z.
Proof.
  assert (Hok : session_ok new_session).
  { exists 0%Z, 0%Z, 0%Z. repeat split; reflexivity. }
  destruct (click_counts "Superb." "2025-10-06T12:00:01"
              (bare_reply "Positive") new_session Hok
              eq_refl eq_refl (or_intror (or_introl eq_refl)))
    as (st' & Hclick & _ & _).
  exists st'. split; [exact Hclick |].
  vm_compute in Hclick. injection Hclick as <-. reflexivity.
Defined.

(** X17.  What a click leaves out and what it leaves half done: a result
    with the key [error] changes nothing in the session; a 200 reply whose
    sentiment is a string without a counter is appended to the results and
    then stops in [KeyError], the counters untouched, so that they no longer
    add up to the number of results. *)
Theorem click_edges (feedback_text timestamp : string) (st : session) :
  truthy feedback_text = true ->
  (forall outcome d,
      analyze_text_api outcome = Ok d -> d !! "error" <> None ->
      on_analyze feedback_text outcome timestamp st = (Completed, st)) /\
  (forall body label,
      body !! "error" = None ->
      body !! "sentiment" = Some (PStr label) ->
      sentiment_counts st !! label = None ->
      on_analyze feedback_text (Response 200 (Ok body)) timestamp st =
        (KeyError (PStr label),
         {| analysis_results :=
              (analysis_results st ++ [<["timestamp" := PStr timestamp]> body])%list;
            sentiment_counts := sentiment_counts st |})).
Proof.
  intros Ht. split.
  - intros outcome d Hd He. unfold on_analyze. rewrite Ht, Hd. cbn [negb].
    destruct (d !! "error"); [reflexivity | contradiction].
  - intros body label He Hs Hc.
    rewrite (on_analyze_stored _ _ _ _ Ht He). cbv zeta.
    rewrite Hs. cbn [default from_option id]. rewrite Hc. reflexivity.
Qed.

Lemma click_edges_witness :
  fst (on_analyze "Hm." (Response 200 (Ok (bare_reply "Mixed")))
         "2025-10-06T12:00:01" new_session)
  = KeyError (PStr "Mixed").
Proof.
  destruct (click_edges "Hm." "2025-10-06T12:00:01" new_session eq_refl)
    as [_ H].
  rewrite (H (bare_reply "Mixed") "Mixed" eq_refl eq_refl eq_refl).
  reflexivity.
Defined.

(** A 200 body of [/analyze] is labelled and carries no [error], and its
    entry is recorded. *)
Lemma ok_body_facts (w : World) (get_json : exc json) (h : list dict)
    (body : dict) :
  fst (analyze_endpoint w get_json h) = Ok (body, 200%Z) ->
  labelled body /\ body !! "error" = None /\
  exists text,
    snd (analyze_endpoint w get_json h) = record (history_entry text body) h.
Proof.
  intros Hok. destruct (analyze_endpoint_ok w _ _ _ Hok) as [Htry ->].
  destruct (analyze_try_ok w _ _ _ Htry)
    as (data & raw & requested & result & -> & Hget & Hne & Ha & -> & ->).
  destruct (analyze_sentiment_backend w _ _ _ (strip_not_blank raw Hne) Ha)
    as [[Hlab [v [Hv Hnum]]] Hshape].
  split; [| split; [| eexists; reflexivity]].
  - split; [| exists v; split; [| exact Hnum]];
      rewrite !lookup_insert_ne by discriminate; assumption.
  - rewrite !lookup_insert_ne by discriminate.
    destruct Hshape as [Hs | Hs]; apply Hs.
Qed.

(** X18.  The dashboard against the answers of [/analyze] itself: a click
    always runs through and keeps the counters in step with the results.  On
    a 200 the body is stored in the session and an entry with the same
    sentiment is recorded by the server; on any other status neither the
    session nor the server's list changes. *)
Theorem dashboard_in_step (w : World) (get_json : exc json) (h : list dict)
    (body : dict) (status : Z) (feedback_text timestamp : string)
    (st : session) :
  fst (analyze_endpoint w get_json h) = Ok (body, status) ->
  session_ok st ->
  truthy feedback_text = true ->
  exists st',
    on_analyze feedback_text (Response status (Ok body)) timestamp st
      = (Completed, st') /\
    session_ok st' /\
    ((status = 200%Z /\
      analysis_results st' =
        (analysis_results st ++ [<["timestamp" := PStr timestamp]> body])%list /\
      exists entry,
        snd (analyze_endpoint w get_json h) = record entry h /\
        entry !! "sentiment" = body !! "sentiment")
     \/ (status <> 200%Z /\ st' = st /\
         snd (analyze_endpoint w get_json h) = h)).
Proof.
  intros Hans Hok Ht.
  destruct (Z.eq_dec status 200%Z) as [-> | Hstatus].
  - destruct (ok_body_facts w _ _ _ Hans) as ([Hlab _] & He & text & Hsnd).
    rewrite (on_analyze_stored _ _ _ _ Ht He). cbv zeta.
    assert (Hkey : exists key,
               body !! "sentiment" = Some (PStr key) /\
               (key = "Positive" \/ key = "Negative" \/ key = "Neutral")).
    { destruct Hlab as [H | [H | H]]; eexists; split; try exact H; auto. }
    destruct Hkey as (key & Hs & Hkey). rewrite Hs. cbn [default from_option id].
    assert (Hcount : exists count, sentiment_counts st !! key = Some count).
    { destruct Hok as (p & n & u & Hp & Hn & Hu & _).
      destruct Hkey as [-> | [-> | ->]]; eauto. }
    destruct Hcount as [count Hcount]. rewrite Hcount.
    eexists. split; [reflexivity |].
    split; [apply session_ok_step; assumption |].
    left. split; [reflexivity |]. split; [reflexivity |].
    exists (history_entry text body). split; [exact Hsnd |].
    rewrite (proj1 (history_entry_fields text body)), Hs. reflexivity.
  - exists st. split; [| split; [exact Hok | right]].
    + unfold on_analyze. rewrite Ht. cbn [negb analyze_text_api].
      apply Z.eqb_neq in Hstatus. rewrite Hstatus. cbn [bind try_except].
      reflexivity.
    + split; [exact Hstatus |]. split; [reflexivity |].
      destruct (analyze_endpoint_cases w get_json h)
        as [Hsame | (text & requested & result & _ & Heq)]; [exact Hsame |].
      rewrite Heq in Hans. cbn [fst] in Hans. congruence.
Qed.

Lemma dashboard_in_step_witness :
  exists st',
    on_analyze "Fine." (Response 500 (Ok (fst (server_error "lexicon not found"))))
      "2025-10-06T12:00:01" new_session = (Completed, st') /\
    session_ok st'.
Proof.
  assert (Hok : session_ok new_session).
  { exists 0%Z, 0%Z, 0%Z. repeat split; reflexivity. }
  destruct (dashboard_in_step broken_world (post "Fine.") []
              (fst (server_error "lexicon not found")) 500
              "Fine." "2025-10-06T12:00:01" new_session eq_refl Hok eq_refl)
    as (st' & Hclick & Hst & _).
  exists st'. split; assumption.
Defined.
